(** * AutoBrake: the event-driven braking controller of [ch10.cpp]

    A shallow embedding of the [AutoBrake] controller, its event records and
    the [MockServiceBus] of the testing chapter, together with the properties
    of its handlers.

    A C++ [double] is an IEEE 754 binary64 value.  It is modelled by the
    Standard Library's executable specification of binary floating point
    ([spec_float], precision 53, maximal exponent 1024), so that division by
    zero, infinities and NaN behave as they do in the compiled program. *)

From Stdlib Require Import ZArith Bool List String Lia.
From Stdlib Require Import Floats.SpecFloat.
Import ListNotations.

Local Open Scope Z_scope.

(** ** Binary64 arithmetic *)

Definition double : Type := spec_float.

Module Double.

Definition prec : Z := 53.
Definition emax : Z := 1024.

(** Conversion of an integer to [double]; exact for every [unsigned short],
    [int] and small [long] literal of the source. *)
Definition of_Z (n : Z) : double := binary_normalize prec emax n 0 false.

Definition nan : double := S754_nan.
Definition infinity : double := S754_infinity false.

(** [x / y] *)
Definition div (x y : double) : double := SFdiv prec emax x y.

(** [x < y], [x <= y], [x == y]: false as soon as an operand is NaN. *)
Definition ltb (x y : double) : bool := SFltb x y.
Definition leb (x y : double) : bool := SFleb x y.
Definition eqb (x y : double) : bool := SFeqb x y.

(** [x > y] and [x >= y] *)
Definition gtb (x y : double) : bool :=
  match SFcompare x y with
  | Some Gt => true
  | _ => false
  end.

Definition geb (x y : double) : bool :=
  match SFcompare x y with
  | Some (Gt | Eq) => true
  | _ => false
  end.

Definition is_nan (x : double) : bool :=
  match x with
  | S754_nan => true
  | _ => false
  end.

Definition is_finite (x : double) : bool :=
  match x with
  | S754_zero _ | S754_finite _ _ _ => true
  | _ => false
  end.

End Double.

(** ** Event records *)

Record SpeedUpdate : Type := { su_velocity_mps : double }.

Record CarDetected : Type := {
  cd_distance_m : double;
  cd_velocity_mps : double
}.

(** The field is an [unsigned short]; it holds a value in [0, 65535]. *)
Record SpeedLimitDetected : Type := { sl_speed_mps : Z }.

Record BrakeCommand : Type := { time_to_collision_s : double }.

(** ** The service bus *)

(** [IServiceBus]: the only operation a handler calls is [publish]. *)
Class IServiceBus (B : Type) : Type := {
  publish : BrakeCommand -> B -> B
}.

(** [MockServiceBus] counts the published commands and keeps the last one.
    The three callback slots are filled by the [AutoBrake] constructor with
    the three handlers defined below. *)
Record MockServiceBus : Type := {
  last_command : BrakeCommand;
  commands_published : Z
}.

Definition MockServiceBus_new : MockServiceBus :=
  {| last_command := {| time_to_collision_s := Double.of_Z 0 |};
     commands_published := 0 |}.

Definition MockServiceBus_publish (cmd : BrakeCommand) (bus : MockServiceBus)
  : MockServiceBus :=
  {| last_command := cmd;
     commands_published := commands_published bus + 1 |}.

#[export] Instance MockServiceBus_IServiceBus : IServiceBus MockServiceBus :=
  {| publish := MockServiceBus_publish |}.

(** A bus that keeps every published command, oldest first. *)
Definition LogBus : Type := list BrakeCommand.

#[export] Instance LogBus_IServiceBus : IServiceBus LogBus :=
  {| publish := fun cmd log => log ++ [cmd] |}.

(** ** The controller *)

Record AutoBrake : Type := {
  collision_threshold_s : double;
  speed_mps : double;
  last_known_speed_limit : Z
}.

(** The member initialisers of the constructor. *)
Definition AutoBrake_new : AutoBrake :=
  {| collision_threshold_s := Double.of_Z 5;
     speed_mps := Double.of_Z 0;
     last_known_speed_limit := 39 |}.

Inductive exception : Type :=
  | out_of_range (what : string).

(** [set_collision_threshold_s]: the state after the call and the exception
    thrown, if any. *)
Definition set_collision_threshold_s (x : double) (this : AutoBrake)
  : AutoBrake * option exception :=
  if Double.ltb x (Double.of_Z 1)
  then (this, Some (out_of_range "Collision less than 1."))
  else ({| collision_threshold_s := x;
           speed_mps := speed_mps this;
           last_known_speed_limit := last_known_speed_limit this |}, None).

Definition get_collision_threshold_s (this : AutoBrake) : double :=
  collision_threshold_s this.

Definition get_speed_mps (this : AutoBrake) : double := speed_mps this.

Definition get_last_known_speed_limit (this : AutoBrake) : Z :=
  last_known_speed_limit this.

(** The three handlers subscribed by the constructor.  Each closes over the
    controller and the bus, so it transforms the pair of both. *)
Section Handlers.

Context {B : Type} `{IServiceBus B}.

Definition speed_update_callback (update : SpeedUpdate)
  (st : AutoBrake * B) : AutoBrake * B :=
  let (this, bus) := st in
  if Double.gtb (su_velocity_mps update)
                (Double.of_Z (last_known_speed_limit this))
  then
    let time_to_collision_s := Double.of_Z 0 in
    (this, publish {| time_to_collision_s := time_to_collision_s |} bus)
  else
    ({| collision_threshold_s := collision_threshold_s this;
        speed_mps := su_velocity_mps update;
        last_known_speed_limit := last_known_speed_limit this |}, bus).

Definition car_detected_callback (cd : CarDetected)
  (st : AutoBrake * B) : AutoBrake * B :=
  let (this, bus) := st in
  let relative_velocity_mps := speed_mps this in
  let time_to_collision_s :=
    Double.div (cd_distance_m cd) relative_velocity_mps in
  if Double.gtb time_to_collision_s (Double.of_Z 0)
     && Double.leb time_to_collision_s (collision_threshold_s this)
  then (this, publish {| time_to_collision_s := time_to_collision_s |} bus)
  else (this, bus).

Definition speed_limit_callback (limit : SpeedLimitDetected)
  (st : AutoBrake * B) : AutoBrake * B :=
  let (this, bus) := st in
  let this' :=
    {| collision_threshold_s := collision_threshold_s this;
       speed_mps := speed_mps this;
       last_known_speed_limit := sl_speed_mps limit |} in
  if Double.gtb (speed_mps this')
                (Double.of_Z (last_known_speed_limit this'))
  then
    let time_to_collision_s := Double.of_Z 0 in
    (this', publish {| time_to_collision_s := time_to_collision_s |} bus)
  else (this', bus).

End Handlers.


(** ** Calls and runs *)

(** What a test or a producer can do with a constructed controller: call the
    mutator, or fire one of the three callbacks held by the bus. *)
Inductive call : Type :=
  | SetCollisionThreshold (x : double)
  | FeedSpeedUpdate (update : SpeedUpdate)
  | FeedCarDetected (cd : CarDetected)
  | FeedSpeedLimitDetected (limit : SpeedLimitDetected).

Section Runs.

Context {B : Type} `{IServiceBus B}.

(** An exception of the mutator reaches the caller; the controller and the
    bus stay as the call left them. *)
Definition step (st : AutoBrake * B) (c : call) : AutoBrake * B :=
  match c with
  | SetCollisionThreshold x =>
      (fst (set_collision_threshold_s x (fst st)), snd st)
  | FeedSpeedUpdate update => speed_update_callback update st
  | FeedCarDetected cd => car_detected_callback cd st
  | FeedSpeedLimitDetected limit => speed_limit_callback limit st
  end.

Definition run (calls : list call) (st : AutoBrake * B) : AutoBrake * B :=
  fold_left step calls st.

(** Publishing the commands of a log, oldest first. *)
Definition replay (log : list BrakeCommand) (bus : B) : B :=
  fold_left (fun b cmd => publish cmd b) log bus.

End Runs.

(** The commands one call publishes, read off the logging bus. *)
Definition published (c : call) (this : AutoBrake) : list BrakeCommand :=
  snd (step (this, [] : LogBus) c).

(** Every command published along a run, each paired with the value
    [collision_threshold_s] has when the command is published. *)
Fixpoint publications (calls : list call) (this : AutoBrake)
  : list (double * BrakeCommand) :=
  match calls with
  | [] => []
  | c :: calls' =>
      map (fun cmd => (collision_threshold_s this, cmd)) (published c this)
      ++ publications calls' (fst (step (this, [] : LogBus) c))
  end.

(** The mutator is never handed a NaN. *)
Definition nan_free (c : call) : bool :=
  match c with
  | SetCollisionThreshold x => negb (Double.is_nan x)
  | _ => true
  end.

(** The bound a published command is expected to meet:
    [0 <= time_to_collision_s <= threshold]. *)
Definition within_threshold (p : double * BrakeCommand) : bool :=
  Double.leb (Double.of_Z 0) (time_to_collision_s (snd p))
  && Double.leb (time_to_collision_s (snd p)) (fst p).

(** ** The reference scenarios *)

Definition fresh : AutoBrake * MockServiceBus :=
  (AutoBrake_new, MockServiceBus_new).

Definition speed_update (v : Z) : SpeedUpdate :=
  {| su_velocity_mps := Double.of_Z v |}.

Definition car_detected (d v : Z) : CarDetected :=
  {| cd_distance_m := Double.of_Z d; cd_velocity_mps := Double.of_Z v |}.

Definition speed_limit (l : Z) : SpeedLimitDetected :=
  {| sl_speed_mps := l |}.

Definition brake_at (t : double) : BrakeCommand :=
  {| time_to_collision_s := t |}.

(** A controller driving at 30 under the initial limit and threshold. *)
Definition driving_at_30 : AutoBrake :=
  {| collision_threshold_s := Double.of_Z 5;
     speed_mps := Double.of_Z 30;
     last_known_speed_limit := 39 |}.

(** A controller driving at 100 under a limit of 100, with threshold 10. *)
Definition driving_at_100 : AutoBrake :=
  {| collision_threshold_s := Double.of_Z 10;
     speed_mps := Double.of_Z 100;
     last_known_speed_limit := 100 |}.

(** [alert_when_collision_imminent] *)
Definition scenario_B : list call :=
  [ SetCollisionThreshold (Double.of_Z 10);
    FeedSpeedUpdate (speed_update 100);
    FeedCarDetected (car_detected 100 0) ].

(** [no_alert_when_collision_not_imminent] *)
Definition scenario_C : list call :=
  [ SetCollisionThreshold (Double.of_Z 2);
    FeedSpeedUpdate (speed_update 100);
    FeedCarDetected (car_detected 1000 50) ].

(** "one brake issued when over speed limit" *)
Definition scenario_D : list call :=
  [ FeedSpeedLimitDetected (speed_limit 35);
    FeedSpeedUpdate (speed_update 40) ].

(** Scenario E: a speed of 30 under the initial limit, then a limit of 25
    (the Catch2 section "brake issued when smaller speed limit is
    encountered" without its opening [SpeedLimitDetected{35}]). *)
Definition scenario_E : list call :=
  [ FeedSpeedUpdate (speed_update 30);
    FeedSpeedLimitDetected (speed_limit 25) ].

(** ** Observations on runs *)

(** The limit of the last [SpeedLimitDetected] of a run, or [current]. *)
Fixpoint last_speed_limit (calls : list call) (current : Z) : Z :=
  match calls with
  | [] => current
  | FeedSpeedLimitDetected limit :: calls' =>
      last_speed_limit calls' (sl_speed_mps limit)
  | _ :: calls' => last_speed_limit calls' current
  end.

(** The argument of the last call of the mutator that did not throw, or
    [current]. *)
Fixpoint last_accepted_threshold (calls : list call) (current : double)
  : double :=
  match calls with
  | [] => current
  | SetCollisionThreshold x :: calls' =>
      last_accepted_threshold calls'
        (if Double.ltb x (Double.of_Z 1) then current else x)
  | _ :: calls' => last_accepted_threshold calls' current
  end.

(** The velocity of the last reading of a list, or [current]. *)
Definition last_velocity (updates : list SpeedUpdate) (current : double)
  : double :=
  last (map su_velocity_mps updates) current.

(** A reading that does not exceed the limit. *)
Definition within_limit (limit : Z) (update : SpeedUpdate) : bool :=
  negb (Double.gtb (su_velocity_mps update) (Double.of_Z limit)).

(** Calls that leave the controller as it is: a [CarDetected] event and a
    call of the mutator that throws. *)
Definition inert (c : call) : bool :=
  match c with
  | FeedCarDetected _ => true
  | SetCollisionThreshold x => Double.ltb x (Double.of_Z 1)
  | _ => false
  end.

(** The sign bit of a [double] (that of NaN is not observed). *)
Definition signbit (x : double) : bool :=
  match x with
  | S754_zero s | S754_infinity s | S754_finite s _ _ => s
  | S754_nan => false
  end.

(** The 53-bit mantissa [Double.of_Z] gives a positive integer below
    [2^53]: the integer shifted left until it has 53 binary digits. *)
Definition integer_mantissa (p : positive) : positive :=
  match (53 - Z.pos (Pos.size p))%Z with
  | Z.pos k => Pos.iter xO p k
  | _ => p
  end.

(** The controller with another threshold. *)
Definition with_threshold (t : double) (this : AutoBrake) : AutoBrake :=
  {| collision_threshold_s := t;
     speed_mps := speed_mps this;
     last_known_speed_limit := last_known_speed_limit this |}.

(** ** Facts about binary64 comparisons *)

Module DoubleFacts.

Import Double.

Lemma compare_antisym (x y : double) :
  SFcompare y x = option_map CompOpp (SFcompare x y).
Proof.
  destruct x as [sx|sx| |sx mx ex], y as [sy|sy| |sy my ey]; simpl;
    try reflexivity;
    try (destruct sx; reflexivity);
    try (destruct sy; reflexivity);
    try (destruct sx, sy; reflexivity).
  destruct sx, sy; simpl; try reflexivity;
    rewrite (Z.compare_antisym ex ey);
    destruct (ex ?= ey); simpl; try reflexivity;
    rewrite (Pos.compare_cont_antisym mx my Eq); simpl;
    destruct (Pos.compare_cont Eq mx my); reflexivity.
Qed.

(** [x > y] is [y < x]. *)
Lemma gtb_ltb (x y : double) : gtb x y = ltb y x.
Proof.
  unfold gtb, ltb, SFltb. rewrite (compare_antisym x y).
  destruct (SFcompare x y) as [[]|]; reflexivity.
Qed.

Lemma compare_nan (x y : double) :
  SFcompare x y = None <-> is_nan x = true \/ is_nan y = true.
Proof.
  destruct x as [sx|sx| |sx mx ex], y as [sy|sy| |sy my ey]; simpl;
    split; intros Hc; try discriminate; auto;
    destruct Hc; discriminate.
Qed.

(** On numbers, exactly one of [x < y] and [x >= y] holds. *)
Lemma not_ltb_geb (x y : double) :
  is_nan x = false -> is_nan y = false ->
  ltb x y = false -> geb x y = true.
Proof.
  intros Hx Hy. unfold ltb, SFltb, geb.
  destruct (SFcompare x y) as [[]|] eqn:Hc; try reflexivity; try discriminate.
  apply compare_nan in Hc. destruct Hc; congruence.
Qed.

Lemma geb_not_ltb (x y : double) : geb x y = true -> ltb x y = false.
Proof.
  unfold ltb, SFltb, geb.
  destruct (SFcompare x y) as [[]|]; try reflexivity; discriminate.
Qed.

(** [x <= y] excludes [x > y]. *)
Lemma leb_not_gtb (x y : double) : leb x y = true -> gtb x y = false.
Proof.
  unfold leb, SFleb, gtb.
  destruct (SFcompare x y) as [[]|]; try reflexivity; discriminate.
Qed.

(** From [t >= 1] to [0 <= t]. *)
Lemma geb_one_nonneg (t : double) :
  geb t (of_Z 1) = true -> leb (of_Z 0) t = true.
Proof.
  destruct t as [s|s| |s m e]; try destruct s; simpl;
    try reflexivity; try discriminate.
Qed.

(** From [t > 0] to [0 <= t]. *)
Lemma gtb_zero_nonneg (t : double) :
  gtb t (of_Z 0) = true -> leb (of_Z 0) t = true.
Proof.
  destruct t as [s|s| |s m e]; try destruct s; simpl;
    try reflexivity; try discriminate.
Qed.

(** [x == 0] holds of the two zeros only. *)
Lemma eqb_zero (x : double) :
  eqb x (of_Z 0) = true -> exists s, x = S754_zero s.
Proof.
  destruct x as [s|s| |s m e]; try destruct s; simpl;
    try discriminate; eauto.
Qed.

(** A quotient by zero is an infinity or NaN. *)
Lemma div_zero_not_finite (x : double) (s : bool) :
  is_finite (div x (S754_zero s)) = false.
Proof. destruct x; reflexivity. Qed.

(** Below [+infinity] nothing non-finite lies in [(0, t]]. *)
Lemma not_finite_outside (q t : double) :
  is_finite q = false -> eqb t infinity = false ->
  gtb q (of_Z 0) && leb q t = false.
Proof.
  destruct q as [sq|sq| |sq mq eq]; simpl; try discriminate;
    intros _ Ht; try reflexivity.
  destruct sq; try reflexivity.
  destruct t as [s|s| |s m e]; try destruct s; simpl in *;
    try reflexivity; discriminate.
Qed.

End DoubleFacts.

(** ** What a call publishes, on any bus *)

Section Publishing.

Context {B : Type} `{IServiceBus B}.

(** A call does to any bus what it does to the logging bus: the controller
    ends in the same state and the bus receives the logged commands. *)
Lemma step_published (c : call) (this : AutoBrake) (bus : B) :
  step (this, bus) c
  = (fst (step (this, [] : LogBus) c), replay (published c this) bus).
Proof.
  unfold published.
  destruct c as [x|update|cd|limit]; simpl.
  - reflexivity.
  - destruct (Double.gtb _ _); reflexivity.
  - destruct (Double.gtb _ _ && Double.leb _ _); reflexivity.
  - destruct (Double.gtb _ _); reflexivity.
Qed.

Lemma replay_app (l1 l2 : list BrakeCommand) (bus : B) :
  replay (l1 ++ l2) bus = replay l2 (replay l1 bus).
Proof. unfold replay. apply fold_left_app. Qed.

Lemma run_cons (c : call) (calls : list call) (st : AutoBrake * B) :
  run (c :: calls) st = run calls (step st c).
Proof. reflexivity. Qed.

End Publishing.

(** The controller's state after a run does not depend on the bus. *)
Lemma run_state_bus {B1 B2 : Type} `{IServiceBus B1} `{IServiceBus B2}
  (calls : list call) :
  forall (this : AutoBrake) (bus1 : B1) (bus2 : B2),
    fst (run calls (this, bus1)) = fst (run calls (this, bus2)).
Proof.
  induction calls as [|c calls IH]; intros this bus1 bus2.
  - reflexivity.
  - rewrite !run_cons.
    rewrite (step_published c this bus1), (step_published c this bus2).
    apply IH.
Qed.

(** A run publishes on any bus exactly the commands of [publications]. *)
Lemma run_published {B : Type} `{IServiceBus B} (calls : list call) :
  forall (this : AutoBrake) (bus : B),
    snd (run calls (this, bus))
    = replay (map snd (publications calls this)) bus.
Proof.
  induction calls as [|c calls IH]; intros this bus.
  - reflexivity.
  - rewrite run_cons, (step_published c this bus), IH.
    cbn [publications].
    rewrite map_app, map_map, replay_app. cbn [snd].
    rewrite map_id. reflexivity.
Qed.

(** ** The reference scenarios on the mock bus *)

(** C1, as stated, fails: from a fresh controller the limit is 39, so
    [SpeedUpdate{100}] is an overspeed reading; the one command published is
    the overspeed command, whose [time_to_collision_s] is 0 and not 1. *)
Lemma scenario_B_fresh_counterexample :
  ~ (commands_published (snd (run scenario_B fresh)) = 1
     /\ Double.eqb
          (time_to_collision_s (last_command (snd (run scenario_B fresh))))
          (Double.of_Z 1) = true).
Proof.
  vm_compute. intros [_ Httc]. discriminate Httc.
Qed.

(** C1, amended: once [SpeedLimitDetected{100}] has raised the limit (as the
    Catch2 section "alerts when collision is imminent" does), setting the
    threshold to 10 and feeding [SpeedUpdate{100}] and
    [CarDetected{100, 0}] publishes exactly one command, with
    [time_to_collision_s == 1.0]; the call of the mutator does not throw.
    From a fresh controller the same calls publish exactly one command too,
    the overspeed command with [time_to_collision_s == 0]. *)
Theorem scenario_B_alert_when_collision_imminent :
  (let calls := FeedSpeedLimitDetected (speed_limit 100) :: scenario_B in
   let bus := snd (run calls fresh) in
   commands_published bus = 1
   /\ Double.eqb (time_to_collision_s (last_command bus)) (Double.of_Z 1)
      = true
   /\ map snd (publications calls AutoBrake_new)
      = [brake_at (Double.of_Z 1)])
  /\ (forall this : AutoBrake,
        snd (set_collision_threshold_s (Double.of_Z 10) this) = None)
  /\ (let bus := snd (run scenario_B fresh) in
      commands_published bus = 1
      /\ last_command bus = brake_at (Double.of_Z 0)
      /\ map snd (publications scenario_B AutoBrake_new)
         = [brake_at (Double.of_Z 0)]).
Proof.
  split; [|split].
  - vm_compute. repeat split; reflexivity.
  - intros this. reflexivity.
  - vm_compute. repeat split; reflexivity.
Qed.

(** C2, as stated, fails: from a fresh controller [SpeedUpdate{100}] exceeds
    the limit of 39 and publishes an overspeed command, so one command is
    published, not zero. *)
Lemma scenario_C_fresh_counterexample :
  commands_published (snd (run scenario_C fresh)) <> 0.
Proof.
  vm_compute. discriminate.
Qed.

(** C2, amended: once [SpeedLimitDetected{100}] has raised the limit (as the
    Catch2 section "doesn't alerts when collision isn't imminent" does),
    setting the threshold to 2 and feeding [SpeedUpdate{100}] and
    [CarDetected{1000, 50}] publishes no command (1000/100 = 10 > 2); the
    call of the mutator does not throw. *)
Theorem scenario_C_no_alert_when_not_imminent :
  (let calls := FeedSpeedLimitDetected (speed_limit 100) :: scenario_C in
   let bus := snd (run calls fresh) in
   commands_published bus = 0
   /\ publications calls AutoBrake_new = []
   /\ Double.div (Double.of_Z 1000) (speed_mps (fst (run calls fresh)))
      = Double.of_Z 10)
  /\ (forall this : AutoBrake,
        snd (set_collision_threshold_s (Double.of_Z 2) this) = None).
Proof.
  split.
  - vm_compute. repeat split; reflexivity.
  - intros this. reflexivity.
Qed.

(** ** The sensitivity threshold *)

Section Threshold.

Context {B : Type} `{IServiceBus B}.

(** No callback writes [collision_threshold_s]. *)
Lemma step_threshold (c : call) (this : AutoBrake) (bus : B) :
  collision_threshold_s (fst (step (this, bus) c))
  = match c with
    | SetCollisionThreshold x =>
        if Double.ltb x (Double.of_Z 1)
        then collision_threshold_s this else x
    | _ => collision_threshold_s this
    end.
Proof.
  destruct c as [x|update|cd|limit]; cbn [step fst snd].
  - unfold set_collision_threshold_s.
    destruct (Double.ltb x (Double.of_Z 1)); reflexivity.
  - unfold speed_update_callback.
    destruct (Double.gtb _ _); reflexivity.
  - unfold car_detected_callback.
    destruct (Double.gtb _ _ && Double.leb _ _); reflexivity.
  - unfold speed_limit_callback. cbn [speed_mps last_known_speed_limit].
    destruct (Double.gtb _ _); reflexivity.
Qed.

(** The threshold is never below 1, whatever is passed to the mutator. *)
Lemma run_threshold_not_below_one (calls : list call) :
  forall (this : AutoBrake) (bus : B),
    Double.ltb (collision_threshold_s this) (Double.of_Z 1) = false ->
    Double.ltb (collision_threshold_s (fst (run calls (this, bus))))
               (Double.of_Z 1) = false.
Proof.
  induction calls as [|c calls IH]; intros this bus Hinv.
  - exact Hinv.
  - rewrite run_cons.
    destruct (step (this, bus) c) as [this' bus'] eqn:Hstep.
    apply IH.
    change this' with (fst (this', bus')). rewrite <- Hstep.
    rewrite step_threshold.
    destruct c as [x|update|cd|limit]; try exact Hinv.
    destruct (Double.ltb x (Double.of_Z 1)) eqn:Hx; [exact Hinv|exact Hx].
Qed.

(** It is at least 1 as long as the mutator is handed numbers. *)
Lemma run_threshold_at_least_one (calls : list call) :
  forall (this : AutoBrake) (bus : B),
    forallb nan_free calls = true ->
    Double.geb (collision_threshold_s this) (Double.of_Z 1) = true ->
    Double.geb (collision_threshold_s (fst (run calls (this, bus))))
               (Double.of_Z 1) = true.
Proof.
  induction calls as [|c calls IH]; intros this bus Hnum Hinv.
  - exact Hinv.
  - rewrite run_cons.
    cbn [forallb] in Hnum. apply andb_true_iff in Hnum.
    destruct Hnum as [Hc Hnum].
    destruct (step (this, bus) c) as [this' bus'] eqn:Hstep.
    apply IH; [exact Hnum|].
    change this' with (fst (this', bus')). rewrite <- Hstep.
    rewrite step_threshold.
    destruct c as [x|update|cd|limit]; try exact Hinv.
    destruct (Double.ltb x (Double.of_Z 1)) eqn:Hx; [exact Hinv|].
    apply DoubleFacts.not_ltb_geb; [|reflexivity|exact Hx].
    simpl in Hc. apply negb_true_iff in Hc. exact Hc.
Qed.

End Threshold.

(** C3, as stated, fails: [NaN < 1] is false, so the mutator accepts NaN and
    stores it, and [NaN >= 1.0] is false in the state reached. *)
Lemma threshold_invariant_counterexample :
  snd (set_collision_threshold_s Double.nan AutoBrake_new) = None
  /\ Double.geb
       (collision_threshold_s
          (fst (run [SetCollisionThreshold Double.nan] fresh)))
       (Double.of_Z 1) = false.
Proof.
  split; reflexivity.
Qed.

(** C3, amended: construction sets [collision_threshold_s] to 5.0; in every
    state reached from there by callbacks and by calls of the mutator whose
    argument is not NaN, [collision_threshold_s >= 1.0]; whatever the
    arguments, [collision_threshold_s < 1.0] never holds.  For every
    [x < 1.0] the mutator throws and leaves the controller as it was; for
    every [x >= 1.0] it returns and sets [collision_threshold_s] to [x],
    leaving the other fields alone. *)
Theorem collision_threshold_invariant :
  forall (B : Type) (HB : IServiceBus B),
    Double.eqb (collision_threshold_s AutoBrake_new) (Double.of_Z 5) = true
    /\ (forall (calls : list call) (bus : B),
          forallb nan_free calls = true ->
          Double.geb
            (collision_threshold_s (fst (run calls (AutoBrake_new, bus))))
            (Double.of_Z 1) = true)
    /\ (forall (calls : list call) (bus : B),
          Double.ltb
            (collision_threshold_s (fst (run calls (AutoBrake_new, bus))))
            (Double.of_Z 1) = false)
    /\ (forall (x : double) (this : AutoBrake),
          Double.ltb x (Double.of_Z 1) = true ->
          exists e : exception,
            set_collision_threshold_s x this = (this, Some e))
    /\ (forall (x : double) (this : AutoBrake),
          Double.geb x (Double.of_Z 1) = true ->
          set_collision_threshold_s x this
          = ({| collision_threshold_s := x;
                speed_mps := speed_mps this;
                last_known_speed_limit := last_known_speed_limit this |},
             None)).
Proof.
  intros B HB. split; [reflexivity|]. split; [|split; [|split]].
  - intros calls bus Hnum.
    apply run_threshold_at_least_one; [exact Hnum|reflexivity].
  - intros calls bus.
    apply run_threshold_not_below_one. reflexivity.
  - intros x this Hx. unfold set_collision_threshold_s. rewrite Hx.
    eexists. reflexivity.
  - intros x this Hx. unfold set_collision_threshold_s.
    rewrite (DoubleFacts.geb_not_ltb _ _ Hx). reflexivity.
Qed.

(** The amended C3 at work: a run with a rejected and an accepted call of the
    mutator, the rejection of 1/2 and the acceptance of 10. *)
Lemma collision_threshold_invariant_witness :
  Double.geb
    (collision_threshold_s
       (fst (run [ SetCollisionThreshold (Double.div (Double.of_Z 1)
                                                     (Double.of_Z 2));
                   FeedSpeedUpdate (speed_update 100);
                   SetCollisionThreshold (Double.of_Z 10) ] fresh)))
    (Double.of_Z 1) = true
  /\ (exists e : exception,
        set_collision_threshold_s
          (Double.div (Double.of_Z 1) (Double.of_Z 2)) AutoBrake_new
        = (AutoBrake_new, Some e))
  /\ set_collision_threshold_s (Double.of_Z 10) AutoBrake_new
     = ({| collision_threshold_s := Double.of_Z 10;
           speed_mps := speed_mps AutoBrake_new;
           last_known_speed_limit := last_known_speed_limit AutoBrake_new |},
        None).
Proof.
  destruct (collision_threshold_invariant MockServiceBus _)
    as (_ & Hinv & _ & Hlow & Hhigh).
  split; [|split].
  - apply Hinv. reflexivity.
  - apply Hlow. reflexivity.
  - apply Hhigh. reflexivity.
Defined.

(** ** The speed-update handler *)

(** C4: on [SpeedUpdate{v}], if [v > last_known_speed_limit] the handler
    publishes exactly one [BrakeCommand] with [time_to_collision_s = 0] and
    leaves the controller as it was; otherwise, and so whenever
    [v <= last_known_speed_limit], it stores [v] in [speed_mps] and
    publishes nothing.  After [SpeedLimitDetected{35}], [SpeedUpdate{40}]
    publishes exactly one [BrakeCommand{0}] and does not store 40; from a
    fresh controller these two events publish one command in total. *)
Theorem speed_update_handler :
  forall (B : Type) (HB : IServiceBus B)
         (this : AutoBrake) (bus : B) (update : SpeedUpdate),
    let v := su_velocity_mps update in
    let limit := Double.of_Z (last_known_speed_limit this) in
    let stored :=
      {| collision_threshold_s := collision_threshold_s this;
         speed_mps := v;
         last_known_speed_limit := last_known_speed_limit this |} in
    (Double.gtb v limit = true ->
     speed_update_callback update (this, bus)
     = (this, publish (brake_at (Double.of_Z 0)) bus)
     /\ published (FeedSpeedUpdate update) this = [brake_at (Double.of_Z 0)])
    /\ (Double.gtb v limit = false ->
        speed_update_callback update (this, bus) = (stored, bus)
        /\ published (FeedSpeedUpdate update) this = [])
    /\ (Double.leb v limit = true ->
        speed_update_callback update (this, bus) = (stored, bus)
        /\ published (FeedSpeedUpdate update) this = [])
    /\ (let st := speed_limit_callback (speed_limit 35) (this, bus) in
        speed_update_callback (speed_update 40) st
        = (fst st, publish (brake_at (Double.of_Z 0)) (snd st)))
    /\ run scenario_D fresh
       = ({| collision_threshold_s := Double.of_Z 5;
             speed_mps := Double.of_Z 0;
             last_known_speed_limit := 35 |},
          {| last_command := brake_at (Double.of_Z 0);
             commands_published := 1 |})
    /\ map snd (publications scenario_D AutoBrake_new)
       = [brake_at (Double.of_Z 0)].
Proof.
  intros B HB this bus update v limit stored.
  assert (Hover : Double.gtb v limit = true ->
            speed_update_callback update (this, bus)
            = (this, publish (brake_at (Double.of_Z 0)) bus)
            /\ published (FeedSpeedUpdate update) this
               = [brake_at (Double.of_Z 0)]).
  { intros Hgt. unfold published, step, speed_update_callback.
    fold v limit. rewrite Hgt. split; reflexivity. }
  assert (Hunder : Double.gtb v limit = false ->
            speed_update_callback update (this, bus) = (stored, bus)
            /\ published (FeedSpeedUpdate update) this = []).
  { intros Hgt. unfold published, step, speed_update_callback.
    fold v limit. rewrite Hgt. split; reflexivity. }
  repeat split; try (apply Hover; assumption); try (apply Hunder; assumption);
    try (apply Hunder; apply DoubleFacts.leb_not_gtb; assumption).
  unfold speed_limit_callback, speed_update_callback.
  cbn [speed_mps last_known_speed_limit speed_limit sl_speed_mps].
  destruct (Double.gtb (speed_mps this) (Double.of_Z 35)); reflexivity.
Qed.

(** C4 on the fresh controller (limit 39): 100 is an overspeed reading, 30 is
    stored. *)
Lemma speed_update_handler_witness :
  (speed_update_callback (speed_update 100) fresh
   = (AutoBrake_new, publish (brake_at (Double.of_Z 0)) MockServiceBus_new)
   /\ published (FeedSpeedUpdate (speed_update 100)) AutoBrake_new
      = [brake_at (Double.of_Z 0)])
  /\ (speed_update_callback (speed_update 30) fresh
      = ({| collision_threshold_s := Double.of_Z 5;
            speed_mps := Double.of_Z 30;
            last_known_speed_limit := 39 |}, MockServiceBus_new)
      /\ published (FeedSpeedUpdate (speed_update 30)) AutoBrake_new = []).
Proof.
  split.
  - destruct (speed_update_handler MockServiceBus _ AutoBrake_new
                MockServiceBus_new (speed_update 100)) as (Hover & _).
    apply Hover. reflexivity.
  - destruct (speed_update_handler MockServiceBus _ AutoBrake_new
                MockServiceBus_new (speed_update 30)) as (_ & _ & Hunder & _).
    apply Hunder. reflexivity.
Defined.

(** ** The car-detected handler *)

Section CarDetectedHandler.

Context {B : Type} `{IServiceBus B}.

(** The handler, with its guard written [0 < t] rather than [t > 0]. *)
Lemma car_detected_callback_eq (cd : CarDetected) (this : AutoBrake)
  (bus : B) :
  let ttc := Double.div (cd_distance_m cd) (speed_mps this) in
  car_detected_callback cd (this, bus)
  = if Double.ltb (Double.of_Z 0) ttc
       && Double.leb ttc (collision_threshold_s this)
    then (this, publish (brake_at ttc) bus)
    else (this, bus).
Proof.
  intros ttc. unfold car_detected_callback. fold ttc.
  rewrite DoubleFacts.gtb_ltb. reflexivity.
Qed.

End CarDetectedHandler.

(** C5: with [speed_mps != 0], on [CarDetected] the handler computes
    [time_to_collision_s = distance_m / speed_mps] from the controller's own
    speed, whatever the velocity of the detected car; it publishes exactly
    one [BrakeCommand] carrying that value if and only if
    [0 < time_to_collision_s <= collision_threshold_s], and publishes nothing
    otherwise; in both cases the controller's state is unchanged. *)
Theorem car_detected_handler :
  forall (B : Type) (HB : IServiceBus B)
         (this : AutoBrake) (bus : B) (cd : CarDetected),
    Double.eqb (speed_mps this) (Double.of_Z 0) = false ->
    let ttc := Double.div (cd_distance_m cd) (speed_mps this) in
    let imminent :=
      Double.ltb (Double.of_Z 0) ttc
      && Double.leb ttc (collision_threshold_s this) in
    fst (car_detected_callback cd (this, bus)) = this
    /\ (imminent = true ->
        snd (car_detected_callback cd (this, bus))
        = publish (brake_at ttc) bus)
    /\ (imminent = false ->
        snd (car_detected_callback cd (this, bus)) = bus)
    /\ (published (FeedCarDetected cd) this = [brake_at ttc]
        <-> imminent = true)
    /\ (published (FeedCarDetected cd) this = [] <-> imminent = false)
    /\ (forall other_velocity_mps : double,
          car_detected_callback
            {| cd_distance_m := cd_distance_m cd;
               cd_velocity_mps := other_velocity_mps |} (this, bus)
          = car_detected_callback cd (this, bus)).
Proof.
  intros B HB this bus cd _ ttc imminent.
  assert (Hother : forall other_velocity_mps : double,
            car_detected_callback
              {| cd_distance_m := cd_distance_m cd;
                 cd_velocity_mps := other_velocity_mps |} (this, bus)
            = car_detected_callback cd (this, bus)) by reflexivity.
  revert Hother. unfold published. cbn [step].
  rewrite !car_detected_callback_eq. fold ttc imminent.
  clearbody imminent ttc. intros Hother.
  destruct imminent; cbn [fst snd publish LogBus_IServiceBus app];
    repeat split; intros; try reflexivity; try discriminate;
    try congruence; apply Hother.
Qed.

(** C5 on a controller driving at 100 with threshold 10: a car at distance
    100 is one second away. *)
Lemma car_detected_handler_witness :
  fst (car_detected_callback (car_detected 100 0)
         (driving_at_100, MockServiceBus_new))
  = driving_at_100
  /\ snd (car_detected_callback (car_detected 100 0)
            (driving_at_100, MockServiceBus_new))
     = publish (brake_at (Double.of_Z 1)) MockServiceBus_new.
Proof.
  destruct (car_detected_handler MockServiceBus _ driving_at_100
              MockServiceBus_new (car_detected 100 0))
    as (Hstate & Hpub & _).
  - reflexivity.
  - split; [exact Hstate|].
    apply Hpub. reflexivity.
Defined.

(** C6, as stated, fails: the threshold may be [+infinity] (the mutator
    accepts it), and then the quotient [100 / 0 = +infinity] passes the guard
    [0 < t <= collision_threshold_s]: a command is published at speed 0. *)
Lemma car_detected_at_standstill_counterexample :
  Double.eqb
    (speed_mps (fst (set_collision_threshold_s Double.infinity AutoBrake_new)))
    (Double.of_Z 0) = true
  /\ commands_published
       (snd (car_detected_callback (car_detected 100 0)
               (fst (set_collision_threshold_s Double.infinity AutoBrake_new),
                MockServiceBus_new))) = 1.
Proof.
  split; reflexivity.
Qed.

(** C6, amended: with [speed_mps == 0] and a threshold other than
    [+infinity], on [CarDetected] the quotient [distance_m / speed_mps] is
    not finite (an infinity or NaN), the guard is false on it, and the
    handler publishes nothing and changes nothing.  The handler is a total
    function: it yields a state for every input. *)
Theorem car_detected_at_standstill :
  forall (B : Type) (HB : IServiceBus B)
         (this : AutoBrake) (bus : B) (cd : CarDetected),
    Double.eqb (speed_mps this) (Double.of_Z 0) = true ->
    Double.eqb (collision_threshold_s this) Double.infinity = false ->
    let ttc := Double.div (cd_distance_m cd) (speed_mps this) in
    Double.is_finite ttc = false
    /\ Double.ltb (Double.of_Z 0) ttc
       && Double.leb ttc (collision_threshold_s this) = false
    /\ car_detected_callback cd (this, bus) = (this, bus)
    /\ published (FeedCarDetected cd) this = [].
Proof.
  intros B HB this bus cd Hzero Hinf ttc.
  destruct (DoubleFacts.eqb_zero _ Hzero) as [s Hs].
  assert (Hnf : Double.is_finite ttc = false).
  { unfold ttc. rewrite Hs. apply DoubleFacts.div_zero_not_finite. }
  assert (Hguard : Double.ltb (Double.of_Z 0) ttc
                   && Double.leb ttc (collision_threshold_s this) = false).
  { rewrite <- DoubleFacts.gtb_ltb.
    apply DoubleFacts.not_finite_outside; assumption. }
  unfold published. cbn [step].
  rewrite !car_detected_callback_eq. fold ttc. rewrite Hguard.
  repeat split; try assumption; reflexivity.
Qed.

(** The amended C6 on the fresh controller (speed 0, threshold 5). *)
Lemma car_detected_at_standstill_witness :
  Double.is_finite
    (Double.div (cd_distance_m (car_detected 100 0)) (speed_mps AutoBrake_new))
  = false
  /\ Double.ltb (Double.of_Z 0)
       (Double.div (cd_distance_m (car_detected 100 0))
          (speed_mps AutoBrake_new))
     && Double.leb
          (Double.div (cd_distance_m (car_detected 100 0))
             (speed_mps AutoBrake_new))
          (collision_threshold_s AutoBrake_new) = false
  /\ car_detected_callback (car_detected 100 0) fresh = fresh
  /\ published (FeedCarDetected (car_detected 100 0)) AutoBrake_new = [].
Proof.
  apply (car_detected_at_standstill MockServiceBus _ AutoBrake_new
           MockServiceBus_new (car_detected 100 0)); reflexivity.
Defined.

(** ** The speed-limit handler *)

(** C7: on [SpeedLimitDetected{L}] the handler sets
    [last_known_speed_limit = L]; then, if [speed_mps > L], it publishes
    exactly one [BrakeCommand] with [time_to_collision_s = 0], and if
    [speed_mps <= L] it publishes nothing.  From a fresh controller,
    [SpeedUpdate{30}] stores 30 and [SpeedLimitDetected{25}] then publishes
    exactly one [BrakeCommand{0}]. *)
Theorem speed_limit_handler :
  forall (B : Type) (HB : IServiceBus B)
         (this : AutoBrake) (bus : B) (limit : SpeedLimitDetected),
    let L := sl_speed_mps limit in
    let updated :=
      {| collision_threshold_s := collision_threshold_s this;
         speed_mps := speed_mps this;
         last_known_speed_limit := L |} in
    last_known_speed_limit (fst (speed_limit_callback limit (this, bus))) = L
    /\ (Double.gtb (speed_mps this) (Double.of_Z L) = true ->
        speed_limit_callback limit (this, bus)
        = (updated, publish (brake_at (Double.of_Z 0)) bus)
        /\ published (FeedSpeedLimitDetected limit) this
           = [brake_at (Double.of_Z 0)])
    /\ (Double.leb (speed_mps this) (Double.of_Z L) = true ->
        speed_limit_callback limit (this, bus) = (updated, bus)
        /\ published (FeedSpeedLimitDetected limit) this = [])
    /\ speed_mps (fst (step fresh (FeedSpeedUpdate (speed_update 30))))
       = Double.of_Z 30
    /\ run scenario_E fresh
       = ({| collision_threshold_s := Double.of_Z 5;
             speed_mps := Double.of_Z 30;
             last_known_speed_limit := 25 |},
          {| last_command := brake_at (Double.of_Z 0);
             commands_published := 1 |})
    /\ map snd (publications scenario_E AutoBrake_new)
       = [brake_at (Double.of_Z 0)].
Proof.
  intros B HB this bus limit L updated.
  split; [|split; [|split]].
  - unfold speed_limit_callback.
    destruct (Double.gtb _ _); reflexivity.
  - intros Hgt. unfold published, step, speed_limit_callback.
    cbn [speed_mps last_known_speed_limit]. fold L. rewrite Hgt.
    split; reflexivity.
  - intros Hle. apply DoubleFacts.leb_not_gtb in Hle.
    unfold published, step, speed_limit_callback.
    cbn [speed_mps last_known_speed_limit]. fold L. rewrite Hle.
    split; reflexivity.
  - vm_compute. repeat split; reflexivity.
Qed.

(** C7 on a controller driving at 30: a limit of 25 brakes, a limit of 35
    does not. *)
Lemma speed_limit_handler_witness :
  published (FeedSpeedLimitDetected (speed_limit 25)) driving_at_30
  = [brake_at (Double.of_Z 0)]
  /\ published (FeedSpeedLimitDetected (speed_limit 35)) driving_at_30 = [].
Proof.
  split.
  - destruct (speed_limit_handler MockServiceBus _ driving_at_30
                MockServiceBus_new (speed_limit 25)) as (_ & Hover & _).
    apply Hover. reflexivity.
  - destruct (speed_limit_handler MockServiceBus _ driving_at_30
                MockServiceBus_new (speed_limit 35)) as (_ & _ & Hunder & _).
    apply Hunder. reflexivity.
Defined.

(** C8, as stated, fails: the handler keeps no memory of having braked, so
    the second of two identical events finds [speed_mps > L] again and
    publishes again.  At speed 30, two [SpeedLimitDetected{25}] events
    publish two commands, one each. *)
Lemma repeated_speed_limit_counterexample :
  Double.gtb
    (speed_mps (fst (step fresh (FeedSpeedUpdate (speed_update 30)))))
    (Double.of_Z 25) = true
  /\ published (FeedSpeedLimitDetected (speed_limit 25))
       (fst (run [ FeedSpeedUpdate (speed_update 30);
                   FeedSpeedLimitDetected (speed_limit 25) ] fresh))
     <> []
  /\ commands_published
       (snd (run [ FeedSpeedUpdate (speed_update 30);
                   FeedSpeedLimitDetected (speed_limit 25);
                   FeedSpeedLimitDetected (speed_limit 25) ] fresh)) = 2.
Proof.
  split; [reflexivity|]. split; [|reflexivity].
  vm_compute. discriminate.
Qed.

(** C8, amended: with [speed_mps > L], two identical
    [SpeedLimitDetected{L}] events in succession leave
    [last_known_speed_limit == L] and publish a [BrakeCommand{0}] on each of
    the two events; the second event leaves the controller's state as the
    first left it. *)
Theorem repeated_speed_limit :
  forall (B : Type) (HB : IServiceBus B)
         (this : AutoBrake) (bus : B) (limit : SpeedLimitDetected),
    Double.gtb (speed_mps this) (Double.of_Z (sl_speed_mps limit)) = true ->
    let once := speed_limit_callback limit (this, bus) in
    let twice := speed_limit_callback limit once in
    last_known_speed_limit (fst twice) = sl_speed_mps limit
    /\ fst twice = fst once
    /\ snd once = publish (brake_at (Double.of_Z 0)) bus
    /\ snd twice = publish (brake_at (Double.of_Z 0)) (snd once)
    /\ published (FeedSpeedLimitDetected limit) this
       = [brake_at (Double.of_Z 0)]
    /\ published (FeedSpeedLimitDetected limit) (fst once)
       = [brake_at (Double.of_Z 0)].
Proof.
  intros B HB this bus limit Hgt once twice.
  unfold twice, once, published, step, speed_limit_callback.
  cbn [speed_mps last_known_speed_limit]. rewrite Hgt.
  cbn [speed_mps last_known_speed_limit fst snd]. rewrite Hgt.
  repeat split; reflexivity.
Qed.

(** The amended C8 at speed 30 with two [SpeedLimitDetected{25}] events. *)
Lemma repeated_speed_limit_witness :
  last_known_speed_limit
    (fst (speed_limit_callback (speed_limit 25)
            (speed_limit_callback (speed_limit 25)
               (driving_at_30, MockServiceBus_new)))) = 25
  /\ snd (speed_limit_callback (speed_limit 25)
            (speed_limit_callback (speed_limit 25)
               (driving_at_30, MockServiceBus_new)))
     = publish (brake_at (Double.of_Z 0))
         (publish (brake_at (Double.of_Z 0)) MockServiceBus_new).
Proof.
  destruct (repeated_speed_limit MockServiceBus _ driving_at_30
              MockServiceBus_new (speed_limit 25))
    as (Hlimit & _ & Honce & Htwice & _).
  - reflexivity.
  - split; [exact Hlimit|].
    rewrite Htwice, Honce. reflexivity.
Defined.

(** ** What is published, and what is left alone *)

(** Whatever a call publishes in a state whose threshold is at least 1 lies
    within [0, collision_threshold_s]. *)
Lemma published_within_threshold (c : call) (this : AutoBrake) :
  Double.geb (collision_threshold_s this) (Double.of_Z 1) = true ->
  forallb within_threshold
    (map (fun cmd => (collision_threshold_s this, cmd)) (published c this))
  = true.
Proof.
  intros Hinv.
  assert (Hzero : within_threshold
                    (collision_threshold_s this, brake_at (Double.of_Z 0))
                  = true).
  { unfold within_threshold. cbn [fst snd brake_at time_to_collision_s].
    rewrite (DoubleFacts.geb_one_nonneg _ Hinv). reflexivity. }
  destruct c as [x|update|cd|limit]; unfold published; cbn [step].
  - reflexivity.
  - unfold speed_update_callback.
    destruct (Double.gtb _ _); [|reflexivity].
    cbn [snd publish LogBus_IServiceBus app map forallb].
    fold (brake_at (Double.of_Z 0)). rewrite Hzero. reflexivity.
  - unfold car_detected_callback.
    destruct (Double.gtb _ _) eqn:Hpos; [|reflexivity].
    destruct (Double.leb _ _) eqn:Hle; [|reflexivity].
    cbn [andb snd publish LogBus_IServiceBus app map forallb].
    unfold within_threshold. cbn [fst snd time_to_collision_s].
    rewrite (DoubleFacts.gtb_zero_nonneg _ Hpos), Hle. reflexivity.
  - unfold speed_limit_callback. cbn [speed_mps last_known_speed_limit].
    destruct (Double.gtb _ _); [|reflexivity].
    cbn [snd publish LogBus_IServiceBus app map forallb].
    fold (brake_at (Double.of_Z 0)). rewrite Hzero. reflexivity.
Qed.

Lemma publications_within_threshold (calls : list call) :
  forall this : AutoBrake,
    forallb nan_free calls = true ->
    Double.geb (collision_threshold_s this) (Double.of_Z 1) = true ->
    forallb within_threshold (publications calls this) = true.
Proof.
  induction calls as [|c calls IH]; intros this Hnum Hinv.
  - reflexivity.
  - cbn [publications]. rewrite forallb_app.
    rewrite (published_within_threshold c this Hinv). cbn [andb].
    cbn [forallb] in Hnum. apply andb_true_iff in Hnum.
    destruct Hnum as [Hc Hnum].
    apply IH; [exact Hnum|].
    apply (run_threshold_at_least_one [c] this ([] : LogBus)); [|exact Hinv].
    cbn [forallb]. rewrite Hc. reflexivity.
Qed.

(** C9, as stated, fails: after the mutator has stored a NaN (which it
    accepts), an overspeed reading publishes a command with
    [time_to_collision_s = 0] while [0 <= collision_threshold_s] is false. *)
Lemma published_bound_counterexample :
  publications [ SetCollisionThreshold Double.nan;
                 FeedSpeedUpdate (speed_update 100) ] AutoBrake_new
  = [(Double.nan, brake_at (Double.of_Z 0))]
  /\ within_threshold (Double.nan, brake_at (Double.of_Z 0)) = false.
Proof.
  split; reflexivity.
Qed.

(** C9, amended: along every run from construction in which the mutator is
    not handed a NaN, every published [BrakeCommand] satisfies
    [0 <= time_to_collision_s <= collision_threshold_s] when it is
    published.  In any state at all, the two overspeed handlers publish at
    most one command, with [time_to_collision_s] exactly 0, and the
    car-detected handler publishes only values with
    [0 < time_to_collision_s <= collision_threshold_s]; the commands of
    [publications] are the ones a run publishes on the bus. *)
Theorem published_commands_within_threshold :
  forall calls : list call,
    forallb nan_free calls = true ->
    forallb within_threshold (publications calls AutoBrake_new) = true
    /\ (forall (B : Type) (HB : IServiceBus B) (bus : B),
          snd (run calls (AutoBrake_new, bus))
          = replay (map snd (publications calls AutoBrake_new)) bus)
    /\ (forall (this : AutoBrake) (update : SpeedUpdate) (cmd : BrakeCommand),
          In cmd (published (FeedSpeedUpdate update) this) ->
          cmd = brake_at (Double.of_Z 0))
    /\ (forall (this : AutoBrake) (limit : SpeedLimitDetected)
               (cmd : BrakeCommand),
          In cmd (published (FeedSpeedLimitDetected limit) this) ->
          cmd = brake_at (Double.of_Z 0))
    /\ (forall (this : AutoBrake) (cd : CarDetected) (cmd : BrakeCommand),
          In cmd (published (FeedCarDetected cd) this) ->
          Double.ltb (Double.of_Z 0) (time_to_collision_s cmd) = true
          /\ Double.leb (time_to_collision_s cmd) (collision_threshold_s this)
             = true)
    /\ (forall (this : AutoBrake) (x : double),
          published (SetCollisionThreshold x) this = []).
Proof.
  intros calls Hnum.
  split; [|split; [|split; [|split; [|split]]]].
  - apply publications_within_threshold; [exact Hnum|reflexivity].
  - intros B HB bus. apply run_published.
  - intros this update cmd. unfold published, step, speed_update_callback.
    destruct (Double.gtb _ _); cbn [snd publish LogBus_IServiceBus app In];
      intros Hin; try contradiction;
      destruct Hin as [Hin|[]]; symmetry; exact Hin.
  - intros this limit cmd. unfold published, step, speed_limit_callback.
    destruct (Double.gtb _ _); cbn [snd publish LogBus_IServiceBus app In];
      intros Hin; try contradiction;
      destruct Hin as [Hin|[]]; symmetry; exact Hin.
  - intros this cd cmd. unfold published. cbn [step].
    rewrite car_detected_callback_eq.
    destruct (Double.ltb _ _) eqn:Hpos;
      [destruct (Double.leb _ _) eqn:Hle|];
      cbn [andb snd publish LogBus_IServiceBus app In];
      intros Hin; try contradiction;
      destruct Hin as [Hin|[]]; subst cmd; split; assumption.
  - intros this x. reflexivity.
Qed.

(** The amended C9 along a run that raises the limit, sets the threshold to
    10, drives at 100, meets a car one second away and then a limit of 25. *)
Lemma published_commands_within_threshold_witness :
  forallb within_threshold
    (publications
       (FeedSpeedLimitDetected (speed_limit 100) :: scenario_B
        ++ [FeedSpeedLimitDetected (speed_limit 25)]) AutoBrake_new) = true.
Proof.
  apply (published_commands_within_threshold
           (FeedSpeedLimitDetected (speed_limit 100) :: scenario_B
            ++ [FeedSpeedLimitDetected (speed_limit 25)])).
  reflexivity.
Defined.

(** C10: no event handler modifies [collision_threshold_s]; the car-detected
    handler modifies no field; the speed-update handler modifies at most
    [speed_mps]; the speed-limit handler modifies at most
    [last_known_speed_limit].  The mutator does modify
    [collision_threshold_s], and nothing else. *)
Theorem handlers_frame :
  forall (B : Type) (HB : IServiceBus B) (this : AutoBrake) (bus : B),
    (forall cd : CarDetected,
       fst (car_detected_callback cd (this, bus)) = this)
    /\ (forall update : SpeedUpdate,
          let this' := fst (speed_update_callback update (this, bus)) in
          collision_threshold_s this' = collision_threshold_s this
          /\ last_known_speed_limit this' = last_known_speed_limit this)
    /\ (forall limit : SpeedLimitDetected,
          let this' := fst (speed_limit_callback limit (this, bus)) in
          collision_threshold_s this' = collision_threshold_s this
          /\ speed_mps this' = speed_mps this)
    /\ (forall x : double,
          let this' := fst (set_collision_threshold_s x this) in
          speed_mps this' = speed_mps this
          /\ last_known_speed_limit this' = last_known_speed_limit this)
    /\ collision_threshold_s
         (fst (set_collision_threshold_s (Double.of_Z 10) AutoBrake_new))
       <> collision_threshold_s AutoBrake_new.
Proof.
  intros B HB this bus.
  split; [|split; [|split; [|split]]].
  - intros cd. unfold car_detected_callback.
    destruct (Double.gtb _ _ && Double.leb _ _); reflexivity.
  - intros update. unfold speed_update_callback.
    destruct (Double.gtb _ _); split; reflexivity.
  - intros limit. unfold speed_limit_callback.
    destruct (Double.gtb _ _); split; reflexivity.
  - intros x. unfold set_collision_threshold_s.
    destruct (Double.ltb _ _); split; reflexivity.
  - vm_compute. discriminate.
Qed.

(** ** The mock bus as an observer *)

Lemma replay_cons {B : Type} `{IServiceBus B}
  (cmd : BrakeCommand) (log : list BrakeCommand) (bus : B) :
  replay (cmd :: log) bus = replay log (publish cmd bus).
Proof. reflexivity. Qed.

Lemma replay_commands_published (log : list BrakeCommand) :
  forall bus : MockServiceBus,
    commands_published (replay log bus)
    = commands_published bus + Z.of_nat (List.length log).
Proof.
  induction log as [|cmd log IH]; intros bus.
  - cbn [replay fold_left List.length Z.of_nat]. rewrite Z.add_0_r. reflexivity.
  - rewrite replay_cons, IH. cbn [publish MockServiceBus_IServiceBus].
    unfold MockServiceBus_publish at 1. cbn [commands_published List.length].
    rewrite Nat2Z.inj_succ, <- Z.add_1_l, Z.add_assoc. reflexivity.
Qed.

Lemma last_cons_default {A : Type} (l : list A) (a d : A) :
  last (a :: l) d = last l a.
Proof.
  revert a d. induction l as [|b l IH]; intros a d.
  - reflexivity.
  - change (last (a :: b :: l) d) with (last (b :: l) d).
    rewrite (IH b d), (IH b a). reflexivity.
Qed.

Lemma replay_last_command (log : list BrakeCommand) :
  forall bus : MockServiceBus,
    last_command (replay log bus) = last log (last_command bus).
Proof.
  induction log as [|cmd log IH]; intros bus.
  - reflexivity.
  - rewrite replay_cons, IH, last_cons_default. reflexivity.
Qed.


(** X2: one call publishes at most one command, whatever the state; the
    mutator publishes none, and a call that publishes nothing leaves any bus
    as it was. *)
Theorem at_most_one_command_per_call :
  forall (c : call) (this : AutoBrake),
    (List.length (published c this) <= 1)%nat
    /\ (forall x : double, published (SetCollisionThreshold x) this = [])
    /\ (forall (B : Type) (HB : IServiceBus B) (bus : B),
          published c this = [] -> snd (step (this, bus) c) = bus).
Proof.
  intros c this. split; [|split].
  - destruct c as [x|update|cd|limit]; unfold published; cbn [step].
    + cbn [snd List.length]. apply Nat.le_0_l.
    + unfold speed_update_callback.
      destruct (Double.gtb _ _); cbn [snd List.length publish LogBus_IServiceBus app];
        auto using Nat.le_0_l, Nat.le_refl.
    + unfold car_detected_callback.
      destruct (Double.gtb _ _ && Double.leb _ _);
        cbn [snd List.length publish LogBus_IServiceBus app];
        auto using Nat.le_0_l, Nat.le_refl.
    + unfold speed_limit_callback.
      destruct (Double.gtb _ _); cbn [snd List.length publish LogBus_IServiceBus app];
        auto using Nat.le_0_l, Nat.le_refl.
  - intros x. reflexivity.
  - intros B HB bus Hnone.
    rewrite (step_published c this bus), Hnone. reflexivity.
Qed.

(** X2 at work: [CarDetected] on the fresh controller publishes nothing and
    leaves the mock bus untouched. *)
Lemma at_most_one_command_per_call_witness :
  snd (step fresh (FeedCarDetected (car_detected 100 0))) = MockServiceBus_new.
Proof.
  destruct (at_most_one_command_per_call
              (FeedCarDetected (car_detected 100 0)) AutoBrake_new)
    as (_ & _ & Hquiet).
  apply (Hquiet MockServiceBus _ MockServiceBus_new). reflexivity.
Defined.

(** ** What a run leaves in the controller *)

Section RunState.

Context {B : Type} `{IServiceBus B}.

Lemma step_limit (c : call) (this : AutoBrake) (bus : B) :
  last_known_speed_limit (fst (step (this, bus) c))
  = match c with
    | FeedSpeedLimitDetected limit => sl_speed_mps limit
    | _ => last_known_speed_limit this
    end.
Proof.
  destruct c as [x|update|cd|limit]; cbn [step fst snd].
  - unfold set_collision_threshold_s.
    destruct (Double.ltb x (Double.of_Z 1)); reflexivity.
  - unfold speed_update_callback.
    destruct (Double.gtb _ _); reflexivity.
  - unfold car_detected_callback.
    destruct (Double.gtb _ _ && Double.leb _ _); reflexivity.
  - unfold speed_limit_callback. cbn [speed_mps last_known_speed_limit].
    destruct (Double.gtb _ _); reflexivity.
Qed.

Lemma run_limit (calls : list call) :
  forall (this : AutoBrake) (bus : B),
    last_known_speed_limit (fst (run calls (this, bus)))
    = last_speed_limit calls (last_known_speed_limit this).
Proof.
  induction calls as [|c calls IH]; intros this bus.
  - reflexivity.
  - rewrite run_cons.
    destruct (step (this, bus) c) as [this' bus'] eqn:Hstep.
    rewrite IH.
    change this' with (fst (this', bus')). rewrite <- Hstep, step_limit.
    destruct c; reflexivity.
Qed.

Lemma run_threshold (calls : list call) :
  forall (this : AutoBrake) (bus : B),
    collision_threshold_s (fst (run calls (this, bus)))
    = last_accepted_threshold calls (collision_threshold_s this).
Proof.
  induction calls as [|c calls IH]; intros this bus.
  - reflexivity.
  - rewrite run_cons.
    destruct (step (this, bus) c) as [this' bus'] eqn:Hstep.
    rewrite IH.
    change this' with (fst (this', bus')). rewrite <- Hstep, step_threshold.
    destruct c; reflexivity.
Qed.

(** An inert call leaves the controller as it is. *)
Lemma step_inert (c : call) (this : AutoBrake) (bus : B) :
  inert c = true -> fst (step (this, bus) c) = this.
Proof.
  destruct c as [x|update|cd|limit]; cbn [inert step fst snd];
    intros Hinert; try discriminate.
  - unfold set_collision_threshold_s. rewrite Hinert. reflexivity.
  - unfold car_detected_callback.
    destruct (Double.gtb _ _ && Double.leb _ _); reflexivity.
Qed.

End RunState.

(** X3: after any run, [get_last_known_speed_limit] returns the limit of the
    last [SpeedLimitDetected] event of the run (the value it had before, if
    the run has none), and [get_collision_threshold_s] returns the argument
    of the last call of the mutator that did not throw (the value it had
    before, if there is none): no other call writes these fields, and a later
    write replaces an earlier one. *)
Theorem last_write_wins :
  forall (B : Type) (HB : IServiceBus B)
         (calls : list call) (this : AutoBrake) (bus : B),
    get_last_known_speed_limit (fst (run calls (this, bus)))
    = last_speed_limit calls (get_last_known_speed_limit this)
    /\ get_collision_threshold_s (fst (run calls (this, bus)))
       = last_accepted_threshold calls (get_collision_threshold_s this).
Proof.
  intros B HB calls this bus. unfold get_last_known_speed_limit,
    get_collision_threshold_s.
  split; [apply run_limit|apply run_threshold].
Qed.

(** X4: a list of speed readings none of which exceeds the current limit is
    saved reading by reading: after the run [get_speed_mps] returns the last
    reading (the old speed for the empty list), the other fields are
    unchanged and nothing is published. *)
Theorem speed_is_saved :
  forall (B : Type) (HB : IServiceBus B)
         (updates : list SpeedUpdate) (this : AutoBrake) (bus : B),
    forallb (within_limit (last_known_speed_limit this)) updates = true ->
    run (map FeedSpeedUpdate updates) (this, bus)
    = ({| collision_threshold_s := collision_threshold_s this;
          speed_mps := last_velocity updates (get_speed_mps this);
          last_known_speed_limit := last_known_speed_limit this |}, bus).
Proof.
  intros B HB updates. unfold last_velocity, get_speed_mps.
  induction updates as [|u updates IH]; intros this bus Hall.
  - destruct this; reflexivity.
  - cbn [forallb] in Hall. apply andb_true_iff in Hall.
    destruct Hall as [Hu Hall].
    cbn [map]. rewrite run_cons. cbn [step].
    unfold speed_update_callback.
    unfold within_limit in Hu. apply negb_true_iff in Hu. rewrite Hu.
    rewrite IH; [|exact Hall].
    cbn [collision_threshold_s speed_mps last_known_speed_limit].
    rewrite last_cons_default. reflexivity.
Qed.

(** X4 on the readings of the test "saves speed after update": 100, 50, 0
    under a limit of 100. *)
Lemma speed_is_saved_witness :
  run (map FeedSpeedUpdate [speed_update 100; speed_update 50; speed_update 0])
      (driving_at_100, MockServiceBus_new)
  = ({| collision_threshold_s := Double.of_Z 10;
        speed_mps := Double.of_Z 0;
        last_known_speed_limit := 100 |}, MockServiceBus_new).
Proof.
  apply (speed_is_saved MockServiceBus _
           [speed_update 100; speed_update 50; speed_update 0]
           driving_at_100 MockServiceBus_new).
  reflexivity.
Defined.

(** X5: overspeed never goes unsignalled by the two speed handlers: whenever
    [speed_mps > last_known_speed_limit] holds in the state a [SpeedUpdate]
    or a [SpeedLimitDetected] event leaves behind, that event has published
    exactly one [BrakeCommand{0}]. *)
Theorem overspeed_is_signalled :
  forall this : AutoBrake,
    (forall update : SpeedUpdate,
       let this' := fst (step (this, [] : LogBus) (FeedSpeedUpdate update)) in
       Double.gtb (speed_mps this')
                  (Double.of_Z (last_known_speed_limit this')) = true ->
       published (FeedSpeedUpdate update) this = [brake_at (Double.of_Z 0)])
    /\ (forall limit : SpeedLimitDetected,
          let this' :=
            fst (step (this, [] : LogBus) (FeedSpeedLimitDetected limit)) in
          Double.gtb (speed_mps this')
                     (Double.of_Z (last_known_speed_limit this')) = true ->
          published (FeedSpeedLimitDetected limit) this
          = [brake_at (Double.of_Z 0)]).
Proof.
  intros this. split.
  - intros update. unfold published. cbn [step].
    unfold speed_update_callback.
    destruct (Double.gtb (su_velocity_mps update) _) eqn:Hover.
    + intros _. reflexivity.
    + cbn [fst speed_mps last_known_speed_limit]. intros Hgt.
      rewrite Hgt in Hover. discriminate Hover.
  - intros limit. unfold published. cbn [step].
    unfold speed_limit_callback.
    cbn [speed_mps last_known_speed_limit].
    destruct (Double.gtb (speed_mps this) _) eqn:Hover.
    + intros _. reflexivity.
    + cbn [fst speed_mps last_known_speed_limit]. intros Hgt.
      rewrite Hgt in Hover. discriminate Hover.
Qed.

(** X5 at speed 30: a limit of 25 is answered by a command, and so is a
    reading of 50 that arrives after it. *)
Lemma overspeed_is_signalled_witness :
  published (FeedSpeedLimitDetected (speed_limit 25)) driving_at_30
  = [brake_at (Double.of_Z 0)]
  /\ published (FeedSpeedUpdate (speed_update 50))
       (fst (step (driving_at_30, MockServiceBus_new)
               (FeedSpeedLimitDetected (speed_limit 25))))
     = [brake_at (Double.of_Z 0)].
Proof.
  split.
  - destruct (overspeed_is_signalled driving_at_30) as [_ Hlimit].
    apply Hlimit. reflexivity.
  - destruct (overspeed_is_signalled
                (fst (step (driving_at_30, MockServiceBus_new)
                        (FeedSpeedLimitDetected (speed_limit 25)))))
      as [Hupdate _].
    apply Hupdate. reflexivity.
Defined.

(** X6: [CarDetected] events and calls of the mutator that throw have no
    lasting effect: dropping them from a run changes nothing in the state the
    controller ends in. *)
Theorem inert_calls_leave_no_trace :
  forall (B : Type) (HB : IServiceBus B)
         (calls : list call) (this : AutoBrake) (bus : B),
    fst (run (filter (fun c => negb (inert c)) calls) (this, bus))
    = fst (run calls (this, bus)).
Proof.
  intros B HB calls.
  induction calls as [|c calls IH]; intros this bus.
  - reflexivity.
  - cbn [filter]. destruct (inert c) eqn:Hinert; cbn [negb].
    + rewrite run_cons.
      destruct (step (this, bus) c) as [this' bus'] eqn:Hstep.
      assert (Hsame : this' = this).
      { change this' with (fst (this', bus')). rewrite <- Hstep.
        apply step_inert. exact Hinert. }
      subst this'. rewrite <- (IH this bus').
      apply run_state_bus.
    + rewrite !run_cons.
      destruct (step (this, bus) c) as [this' bus'].
      apply IH.
Qed.


(** ** Whole numbers as doubles *)

(** The readings, limits and thresholds of the tests are whole numbers
    converted to [double].  Below [2^53] the conversion is exact, and the
    comparisons of the handlers are the comparisons of the integers. *)
Module IntegerFacts.

Import Double.

Lemma digits2_pos_size (p : positive) : digits2_pos p = Pos.size p.
Proof. induction p; simpl; congruence. Qed.

Lemma size_iter_xO (p k : positive) :
  Pos.size (Pos.iter xO p k) = (Pos.size p + k)%positive.
Proof.
  induction k using Pos.peano_ind.
  - simpl. lia.
  - rewrite Pos.iter_succ. simpl. rewrite IHk. lia.
Qed.

Lemma Zpos_iter_xO (p k : positive) :
  Z.pos (Pos.iter xO p k) = Z.pos p * 2 ^ Z.pos k.
Proof.
  induction k using Pos.peano_ind.
  - simpl. lia.
  - rewrite Pos.iter_succ, Pos2Z.inj_xO, IHk, Pos2Z.inj_succ, Z.pow_succ_r
      by lia.
    lia.
Qed.

(** Rounding keeps a 53-digit mantissa with an exponent in range. *)
Lemma round_aux_exact (s : bool) (m : positive) (e : Z) :
  Z.pos (Pos.size m) = 53 -> -1074 <= e <= 971 ->
  binary_round_aux prec emax s (Z.pos m) e loc_Exact = S754_finite s m e.
Proof.
  intros Hm He. unfold binary_round_aux, shr_fexp.
  cbn [Zdigits2 shr_record_of_loc]. rewrite digits2_pos_size, Hm.
  assert (Hf : fexp prec emax (53 + e) - e = 0).
  { unfold fexp, emin, prec, emax. lia. }
  rewrite Hf.
  cbn [shr shr_m loc_of_shr_record round_nearest_even Zdigits2
       shr_record_of_loc].
  rewrite digits2_pos_size, Hm, Hf. cbn [shr shr_m].
  replace (e <=? emax - prec) with true; [reflexivity|].
  symmetry. apply Z.leb_le. unfold emax, prec. lia.
Qed.

Lemma binary_round_integer (s : bool) (p : positive) :
  Z.pos (Pos.size p) <= 53 ->
  binary_round prec emax s p 0
  = S754_finite s (integer_mantissa p) (Z.pos (Pos.size p) - 53).
Proof.
  intros Hp. unfold binary_round, shl_align, integer_mantissa.
  rewrite digits2_pos_size.
  assert (Hf : fexp prec emax (Z.pos (Pos.size p) + 0)
               = Z.pos (Pos.size p) - 53).
  { unfold fexp, emin, prec, emax. lia. }
  rewrite Hf.
  destruct (Z.pos (Pos.size p) - 53 - 0) as [|k|k] eqn:Hk; try lia.
  - replace (53 - Z.pos (Pos.size p)) with 0 by lia.
    rewrite round_aux_exact; [|lia|lia]. f_equal. lia.
  - replace (53 - Z.pos (Pos.size p)) with (Z.pos k) by lia.
    apply round_aux_exact; [|lia].
    rewrite size_iter_xO. lia.
Qed.

Lemma size_bounds (p : positive) :
  Z.pos p < 2 ^ Z.pos (Pos.size p) /\ 2 ^ Z.pos (Pos.size p) <= 2 * Z.pos p.
Proof.
  split.
  - pose proof (Pos.size_gt p) as Hgt.
    apply Pos2Z.pos_lt_pos in Hgt. rewrite Pos2Z.inj_pow in Hgt. exact Hgt.
  - pose proof (Pos.size_le p) as Hle.
    apply Pos2Z.pos_le_pos in Hle. rewrite Pos2Z.inj_pow in Hle.
    rewrite Pos2Z.inj_xO in Hle. exact Hle.
Qed.

Lemma size_le_prec (p : positive) :
  Z.pos p < 2 ^ 53 -> Z.pos (Pos.size p) <= 53.
Proof.
  intros Hp. destruct (size_bounds p) as [_ Hle].
  destruct (Z.le_gt_cases (Z.pos (Pos.size p)) 53) as [Hs|Hs]; [exact Hs|].
  assert (Hpow : 2 ^ 54 <= 2 ^ Z.pos (Pos.size p)).
  { apply Z.pow_le_mono_r; lia. }
  change (2 ^ 54) with (2 * 2 ^ 53) in Hpow. lia.
Qed.

Lemma Zpos_integer_mantissa (p : positive) :
  Z.pos (Pos.size p) <= 53 ->
  Z.pos (integer_mantissa p) = Z.pos p * 2 ^ (53 - Z.pos (Pos.size p)).
Proof.
  intros Hp. unfold integer_mantissa.
  destruct (53 - Z.pos (Pos.size p)) as [|k|k] eqn:Hk; try lia.
  apply Zpos_iter_xO.
Qed.

Lemma size_mono (p q : positive) :
  Z.pos (Pos.size p) < Z.pos (Pos.size q) -> Z.pos p < Z.pos q.
Proof.
  intros Hlt.
  destruct (size_bounds p) as [Hp _]. destruct (size_bounds q) as [_ Hq].
  assert (Hpow : 2 * 2 ^ Z.pos (Pos.size p) <= 2 ^ Z.pos (Pos.size q)).
  { rewrite <- Z.pow_succ_r by lia. apply Z.pow_le_mono_r; lia. }
  lia.
Qed.

Lemma compare_integer_mantissa (p q : positive) :
  Z.pos (Pos.size p) <= 53 -> Z.pos (Pos.size q) <= 53 ->
  match Z.pos (Pos.size p) - 53 ?= Z.pos (Pos.size q) - 53 with
  | Lt => Lt
  | Gt => Gt
  | Eq => Pos.compare_cont Eq (integer_mantissa p) (integer_mantissa q)
  end = (Z.pos p ?= Z.pos q).
Proof.
  intros Hp Hq. symmetry.
  destruct (Z.compare_spec (Z.pos (Pos.size p) - 53)
                           (Z.pos (Pos.size q) - 53)) as [Heq|Hlt|Hgt].
  - change (Pos.compare_cont Eq (integer_mantissa p) (integer_mantissa q))
      with (Z.pos (integer_mantissa p) ?= Z.pos (integer_mantissa q)).
    rewrite !Zpos_integer_mantissa by assumption.
    replace (Z.pos (Pos.size q)) with (Z.pos (Pos.size p)) by lia.
    apply Zmult_compare_compat_r.
    apply Z.lt_gt. apply Z.pow_pos_nonneg; lia.
  - apply Z.compare_lt_iff. apply size_mono. lia.
  - apply Z.compare_gt_iff. apply size_mono. lia.
Qed.

(** The value of [of_Z] below [2^53]. *)
Lemma of_Z_eq (n : Z) :
  Z.abs n < 2 ^ 53 ->
  of_Z n
  = match n with
    | Z0 => S754_zero false
    | Z.pos p =>
        S754_finite false (integer_mantissa p) (Z.pos (Pos.size p) - 53)
    | Z.neg p =>
        S754_finite true (integer_mantissa p) (Z.pos (Pos.size p) - 53)
    end.
Proof.
  intros Hn. destruct n as [|p|p]; unfold of_Z, binary_normalize.
  - reflexivity.
  - apply binary_round_integer. apply size_le_prec. exact Hn.
  - apply binary_round_integer. apply size_le_prec. exact Hn.
Qed.

(** [of_Z] is an order embedding below [2^53]. *)
Lemma compare_of_Z (a b : Z) :
  Z.abs a < 2 ^ 53 -> Z.abs b < 2 ^ 53 ->
  SFcompare (of_Z a) (of_Z b) = Some (a ?= b).
Proof.
  intros Ha Hb. rewrite (of_Z_eq a Ha), (of_Z_eq b Hb).
  destruct a as [|p|p], b as [|q|q]; try reflexivity.
  - cbn [SFcompare]. f_equal.
    apply compare_integer_mantissa; apply size_le_prec; assumption.
  - cbn [SFcompare]. f_equal.
    change (Z.neg p ?= Z.neg q) with (CompOpp (Z.pos p ?= Z.pos q)).
    rewrite <- (compare_integer_mantissa p q)
      by (apply size_le_prec; assumption).
    destruct (Z.pos (Pos.size p) - 53 ?= Z.pos (Pos.size q) - 53);
      reflexivity.
Qed.

Lemma gtb_of_Z (a b : Z) :
  Z.abs a < 2 ^ 53 -> Z.abs b < 2 ^ 53 ->
  gtb (of_Z a) (of_Z b) = (b <? a).
Proof.
  intros Ha Hb. unfold gtb. rewrite (compare_of_Z a b Ha Hb).
  rewrite Z.ltb_antisym, Z.leb_compare.
  destruct (a ?= b); reflexivity.
Qed.

Lemma ltb_of_Z (a b : Z) :
  Z.abs a < 2 ^ 53 -> Z.abs b < 2 ^ 53 ->
  ltb (of_Z a) (of_Z b) = (a <? b).
Proof.
  intros Ha Hb. unfold ltb, SFltb. rewrite (compare_of_Z a b Ha Hb).
  unfold Z.ltb. destruct (a ?= b); reflexivity.
Qed.

End IntegerFacts.

(** X8: for a whole number [n] with [|n| < 2^53], [set_collision_threshold_s]
    called with [n] throws exactly when [n < 1] as an integer, leaving the
    controller as it was; for [n >= 1] it returns and stores [n]. *)
Theorem whole_number_threshold :
  forall (n : Z) (this : AutoBrake),
    Z.abs n < 2 ^ 53 ->
    (n < 1 ->
     exists e : exception,
       set_collision_threshold_s (Double.of_Z n) this = (this, Some e))
    /\ (1 <= n ->
        set_collision_threshold_s (Double.of_Z n) this
        = (with_threshold (Double.of_Z n) this, None)).
Proof.
  intros n this Hn. unfold set_collision_threshold_s.
  rewrite IntegerFacts.ltb_of_Z; [|exact Hn|reflexivity].
  split; intros Hcmp.
  - apply Z.ltb_lt in Hcmp. rewrite Hcmp. eexists. reflexivity.
  - apply Z.ltb_ge in Hcmp. rewrite Hcmp. reflexivity.
Qed.

(** X8 on the fresh controller: -3 is rejected, 1 is accepted. *)
Lemma whole_number_threshold_witness :
  (exists e : exception,
     set_collision_threshold_s (Double.of_Z (-3)) AutoBrake_new
     = (AutoBrake_new, Some e))
  /\ set_collision_threshold_s (Double.of_Z 1) AutoBrake_new
     = (with_threshold (Double.of_Z 1) AutoBrake_new, None).
Proof.
  split.
  - destruct (whole_number_threshold (-3) AutoBrake_new) as [Hlow _].
    + reflexivity.
    + apply Hlow. reflexivity.
  - destruct (whole_number_threshold 1 AutoBrake_new) as [_ Hhigh].
    + reflexivity.
    + apply Hhigh. discriminate.
Defined.

(** The speed-update handler on a whole-number reading. *)
Lemma speed_update_integer {B : Type} `{IServiceBus B}
  (this : AutoBrake) (bus : B) (v : Z) :
  Z.abs v < 2 ^ 53 ->
  0 <= last_known_speed_limit this <= 65535 ->
  speed_update_callback (speed_update v) (this, bus)
  = if last_known_speed_limit this <? v
    then (this, publish (brake_at (Double.of_Z 0)) bus)
    else ({| collision_threshold_s := collision_threshold_s this;
             speed_mps := Double.of_Z v;
             last_known_speed_limit := last_known_speed_limit this |},
          bus).
Proof.
  intros Hv Hlimit.
  unfold speed_update_callback, speed_update. cbn [su_velocity_mps].
  rewrite IntegerFacts.gtb_of_Z; [|exact Hv|].
  - destruct (last_known_speed_limit this <? v); reflexivity.
  - apply Z.abs_lt. change (2 ^ 53) with 9007199254740992. lia.
Qed.

(** X9: on a whole-number reading [v] with [|v| < 2^53], and with the limit
    an [unsigned short], the speed-update handler compares as the integers
    do: it publishes one [BrakeCommand{0}] and keeps the old speed exactly
    when [v] is greater than the limit, and stores [v] without publishing
    otherwise. *)
Theorem whole_number_speed_update :
  forall (B : Type) (HB : IServiceBus B)
         (this : AutoBrake) (bus : B) (v : Z),
    Z.abs v < 2 ^ 53 ->
    0 <= last_known_speed_limit this <= 65535 ->
    (last_known_speed_limit this < v ->
     speed_update_callback (speed_update v) (this, bus)
     = (this, publish (brake_at (Double.of_Z 0)) bus))
    /\ (v <= last_known_speed_limit this ->
        speed_update_callback (speed_update v) (this, bus)
        = ({| collision_threshold_s := collision_threshold_s this;
              speed_mps := Double.of_Z v;
              last_known_speed_limit := last_known_speed_limit this |},
           bus)).
Proof.
  intros B HB this bus v Hv Hlimit.
  rewrite (speed_update_integer this bus v Hv Hlimit).
  split; intros Hcmp.
  - apply Z.ltb_lt in Hcmp. rewrite Hcmp. reflexivity.
  - apply Z.ltb_ge in Hcmp. rewrite Hcmp. reflexivity.
Qed.

(** X9 on the fresh controller (limit 39): 39 is stored, 40 brakes. *)
Lemma whole_number_speed_update_witness :
  speed_update_callback (speed_update 39) fresh
  = ({| collision_threshold_s := Double.of_Z 5;
        speed_mps := Double.of_Z 39;
        last_known_speed_limit := 39 |}, MockServiceBus_new)
  /\ speed_update_callback (speed_update 40) fresh
     = (AutoBrake_new, publish (brake_at (Double.of_Z 0)) MockServiceBus_new).
Proof.
  split.
  - destruct (whole_number_speed_update MockServiceBus _ AutoBrake_new
                MockServiceBus_new 39) as [_ Hunder].
    + reflexivity.
    + split; discriminate.
    + apply Hunder. discriminate.
  - destruct (whole_number_speed_update MockServiceBus _ AutoBrake_new
                MockServiceBus_new 40) as [Hover _].
    + reflexivity.
    + split; discriminate.
    + apply Hover. reflexivity.
Defined.

(** X10: a whole-number reading [v] that does not exceed the limit, followed
    by a newly detected limit [L]: the reading is stored, the limit becomes
    [L], and exactly one [BrakeCommand{0}] is published if [v > L] as
    integers, none otherwise. *)
Theorem lowered_limit_brakes_stored_speed :
  forall (B : Type) (HB : IServiceBus B)
         (this : AutoBrake) (bus : B) (v L : Z),
    0 <= v <= last_known_speed_limit this ->
    last_known_speed_limit this <= 65535 ->
    0 <= L <= 65535 ->
    run [FeedSpeedUpdate (speed_update v);
         FeedSpeedLimitDetected (speed_limit L)] (this, bus)
    = ({| collision_threshold_s := collision_threshold_s this;
          speed_mps := Double.of_Z v;
          last_known_speed_limit := L |},
       if L <? v then publish (brake_at (Double.of_Z 0)) bus else bus).
Proof.
  intros B HB this bus v L Hv Hlimit HL.
  assert (Hv53 : Z.abs v < 2 ^ 53).
  { apply Z.abs_lt. change (2 ^ 53) with 9007199254740992. lia. }
  assert (HL53 : Z.abs L < 2 ^ 53).
  { apply Z.abs_lt. change (2 ^ 53) with 9007199254740992. lia. }
  rewrite !run_cons. cbn [step run fold_left].
  rewrite (speed_update_integer this bus v Hv53) by lia.
  replace (last_known_speed_limit this <? v) with false
    by (symmetry; apply Z.ltb_ge; lia).
  unfold speed_limit_callback, speed_limit.
  cbn [speed_mps last_known_speed_limit sl_speed_mps collision_threshold_s].
  rewrite (IntegerFacts.gtb_of_Z v L Hv53 HL53).
  destruct (L <? v); reflexivity.
Qed.

(** X10 at the limit of 39: a reading of 30 followed by a limit of 25 brakes,
    followed by a limit of 30 it does not. *)
Lemma lowered_limit_brakes_stored_speed_witness :
  run [FeedSpeedUpdate (speed_update 30);
       FeedSpeedLimitDetected (speed_limit 25)] fresh
  = ({| collision_threshold_s := Double.of_Z 5;
        speed_mps := Double.of_Z 30;
        last_known_speed_limit := 25 |},
     publish (brake_at (Double.of_Z 0)) MockServiceBus_new)
  /\ run [FeedSpeedUpdate (speed_update 30);
          FeedSpeedLimitDetected (speed_limit 30)] fresh
     = ({| collision_threshold_s := Double.of_Z 5;
           speed_mps := Double.of_Z 30;
           last_known_speed_limit := 30 |}, MockServiceBus_new).
Proof.
  split.
  - apply (lowered_limit_brakes_stored_speed MockServiceBus _ AutoBrake_new
             MockServiceBus_new 30 25);
      try (split; discriminate); discriminate.
  - apply (lowered_limit_brakes_stored_speed MockServiceBus _ AutoBrake_new
             MockServiceBus_new 30 30);
      try (split; discriminate); discriminate.
Defined.

(** ** Edge cases of the car-detected handler *)

Module DivisionFacts.

Import Double.

(** A rounded result carries the sign it was given, or is NaN. *)
Lemma round_aux_negative (m e : Z) (l : location) :
  gtb (binary_round_aux prec emax true m e l) (of_Z 0) = false.
Proof.
  unfold binary_round_aux.
  destruct (shr_fexp prec emax m e l) as [mrs' e'].
  destruct (shr_fexp prec emax _ e' loc_Exact) as [mrs'' e''].
  destruct (shr_m mrs'') as [|p|p]; try reflexivity.
  destruct (e'' <=? emax - prec); reflexivity.
Qed.

(** A quotient of operands of opposite sign is not positive. *)
Lemma div_opposite_signs (x y : double) :
  xorb (signbit x) (signbit y) = true ->
  gtb (div x y) (of_Z 0) = false.
Proof.
  intros Hsign.
  destruct x as [sx|sx| |sx mx ex], y as [sy|sy| |sy my ey];
    cbn [signbit] in Hsign; try reflexivity; unfold div; cbn [SFdiv];
    try (rewrite Hsign; reflexivity).
  destruct (SFdiv_core_binary prec emax (Z.pos mx) ex (Z.pos my) ey)
    as [[mz ez] lz].
  rewrite Hsign. apply round_aux_negative.
Qed.

(** A quotient with a zero numerator is a zero or NaN. *)
Lemma div_zero_numerator (x y : double) :
  eqb x (of_Z 0) = true -> gtb (div x y) (of_Z 0) = false.
Proof.
  intros Hzero. destruct (DoubleFacts.eqb_zero x Hzero) as [s Hx]. subst x.
  destruct y; reflexivity.
Qed.

Lemma div_nan (x y : double) :
  is_nan x = true \/ is_nan y = true -> gtb (div x y) (of_Z 0) = false.
Proof.
  intros [Hnan|Hnan].
  - destruct x; try discriminate. reflexivity.
  - destruct y; try discriminate. destruct x; reflexivity.
Qed.

Lemma leb_nan_r (x y : double) : is_nan y = true -> leb x y = false.
Proof.
  intros Hnan. destruct y; try discriminate. destruct x; reflexivity.
Qed.

(** [<=] is transitive. *)
Lemma leb_trans (x y z : double) :
  leb x y = true -> leb y z = true -> leb x z = true.
Proof.
  unfold leb, SFleb.
  destruct x as [sx|sx| |sx mx ex], y as [sy|sy| |sy my ey],
           z as [sz|sz| |sz mz ez]; cbn [SFcompare];
    try destruct sx; try destruct sy; try destruct sz;
    try reflexivity; try discriminate;
    change (Pos.compare_cont Eq) with Pos.compare;
    destruct (Z.compare_spec ex ey), (Z.compare_spec ey ez),
             (Z.compare_spec ex ez);
    try reflexivity; try discriminate; try lia;
    destruct (Pos.compare_spec mx my), (Pos.compare_spec my mz),
             (Pos.compare_spec mx mz);
    cbn [CompOpp]; try reflexivity; try discriminate; try lia.
Qed.

End DivisionFacts.

(** The commands the car-detected handler publishes, guard spelled out. *)
Lemma published_car_detected (cd : CarDetected) (this : AutoBrake) :
  published (FeedCarDetected cd) this
  = if Double.gtb (Double.div (cd_distance_m cd) (speed_mps this))
                  (Double.of_Z 0)
       && Double.leb (Double.div (cd_distance_m cd) (speed_mps this))
                     (collision_threshold_s this)
    then [brake_at (Double.div (cd_distance_m cd) (speed_mps this))]
    else [].
Proof.
  unfold published. cbn [step]. unfold car_detected_callback.
  destruct (Double.gtb _ _ && Double.leb _ _); reflexivity.
Qed.

(** X11: the car-detected handler publishes nothing on degenerate input: a
    distance of exactly 0 (the quotient is 0 or NaN, never positive), a NaN
    distance, a NaN speed, or a NaN threshold. *)
Theorem car_detected_degenerate_input :
  forall (cd : CarDetected) (this : AutoBrake),
    Double.eqb (cd_distance_m cd) (Double.of_Z 0) = true
    \/ Double.is_nan (cd_distance_m cd) = true
    \/ Double.is_nan (speed_mps this) = true
    \/ Double.is_nan (collision_threshold_s this) = true ->
    published (FeedCarDetected cd) this = [].
Proof.
  intros cd this Hcase. rewrite published_car_detected.
  destruct Hcase as [Hzero|[Hnan|[Hnan|Hnan]]].
  - rewrite (DivisionFacts.div_zero_numerator _ _ Hzero). reflexivity.
  - rewrite (DivisionFacts.div_nan _ _ (or_introl Hnan)). reflexivity.
  - rewrite (DivisionFacts.div_nan _ _ (or_intror Hnan)). reflexivity.
  - rewrite (DivisionFacts.leb_nan_r _ _ Hnan), andb_false_r. reflexivity.
Qed.

(** X11 at speed 100: a car at distance 0 raises no alert. *)
Lemma car_detected_degenerate_input_witness :
  published (FeedCarDetected (car_detected 0 0)) driving_at_100 = [].
Proof.
  apply (car_detected_degenerate_input (car_detected 0 0) driving_at_100).
  left. reflexivity.
Defined.

(** X12: when the distance and the controller's speed have opposite signs (a
    car behind, or a controller moving backwards), the car-detected handler
    publishes nothing, whatever the threshold. *)
Theorem car_detected_opposite_signs :
  forall (cd : CarDetected) (this : AutoBrake),
    xorb (signbit (cd_distance_m cd)) (signbit (speed_mps this)) = true ->
    published (FeedCarDetected cd) this = [].
Proof.
  intros cd this Hsign. rewrite published_car_detected.
  rewrite (DivisionFacts.div_opposite_signs _ _ Hsign). reflexivity.
Qed.

(** X12 at speed 100: a car 100 m behind raises no alert. *)
Lemma car_detected_opposite_signs_witness :
  published (FeedCarDetected (car_detected (-100) 0)) driving_at_100 = [].
Proof.
  apply (car_detected_opposite_signs (car_detected (-100) 0) driving_at_100).
  reflexivity.
Defined.

(** X13: raising the threshold never loses an alert: if the car-detected
    handler publishes a command under the current threshold, it publishes
    the same command under every threshold that is at least as large. *)
Theorem raised_threshold_keeps_alert :
  forall (cd : CarDetected) (this : AutoBrake) (t : double),
    Double.leb (collision_threshold_s this) t = true ->
    published (FeedCarDetected cd) this <> [] ->
    published (FeedCarDetected cd) (with_threshold t this)
    = published (FeedCarDetected cd) this.
Proof.
  intros cd this t Hle. rewrite !published_car_detected.
  unfold with_threshold. cbn [speed_mps collision_threshold_s].
  destruct (Double.gtb _ _); cbn [andb]; [|intros Hpub; contradiction].
  destruct (Double.leb _ (collision_threshold_s this)) eqn:Hold;
    [|intros Hpub; contradiction].
  intros _. rewrite (DivisionFacts.leb_trans _ _ _ Hold Hle). reflexivity.
Qed.

(** X13 at speed 100 and threshold 10, raised to +infinity: the alert for a
    car one second away stays. *)
Lemma raised_threshold_keeps_alert_witness :
  published (FeedCarDetected (car_detected 100 0))
    (with_threshold Double.infinity driving_at_100)
  = published (FeedCarDetected (car_detected 100 0)) driving_at_100.
Proof.
  apply (raised_threshold_keeps_alert (car_detected 100 0) driving_at_100
           Double.infinity).
  - reflexivity.
  - vm_compute. discriminate.
Defined.

(** X14: the time to collision is computed from the last reading that did not
    exceed the limit: after such a [SpeedUpdate{v}], [CarDetected] publishes
    [distance_m / v] exactly when [0 < distance_m / v <=
    collision_threshold_s]; after an overspeed reading it publishes what it
    would have published before the reading. *)
Theorem car_detected_uses_stored_speed :
  forall (update : SpeedUpdate) (cd : CarDetected) (this : AutoBrake),
    let after := fst (step (this, [] : LogBus) (FeedSpeedUpdate update)) in
    let ttc := Double.div (cd_distance_m cd) (su_velocity_mps update) in
    (within_limit (last_known_speed_limit this) update = true ->
     published (FeedCarDetected cd) after
     = if Double.ltb (Double.of_Z 0) ttc
          && Double.leb ttc (collision_threshold_s this)
       then [brake_at ttc] else [])
    /\ (within_limit (last_known_speed_limit this) update = false ->
        published (FeedCarDetected cd) after
        = published (FeedCarDetected cd) this).
Proof.
  intros update cd this after ttc. unfold after, within_limit.
  cbn [step]. unfold speed_update_callback.
  split; intros Hlimit.
  - apply negb_true_iff in Hlimit. rewrite Hlimit. cbn [fst].
    rewrite published_car_detected.
    cbn [speed_mps collision_threshold_s]. fold ttc.
    rewrite DoubleFacts.gtb_ltb. reflexivity.
  - apply negb_false_iff in Hlimit. rewrite Hlimit. reflexivity.
Qed.

(** X14 on the fresh controller: after a reading of 30 a car at 60 m is two
    seconds away; after a reading of 100 the speed is still 0 and no alert
    is raised. *)
Lemma car_detected_uses_stored_speed_witness :
  published (FeedCarDetected (car_detected 60 0))
    (fst (step (AutoBrake_new, [] : LogBus) (FeedSpeedUpdate (speed_update 30))))
  = [brake_at (Double.of_Z 2)]
  /\ published (FeedCarDetected (car_detected 60 0))
       (fst (step (AutoBrake_new, [] : LogBus)
               (FeedSpeedUpdate (speed_update 100))))
     = published (FeedCarDetected (car_detected 60 0)) AutoBrake_new.
Proof.
  split.
  - destruct (car_detected_uses_stored_speed (speed_update 30)
                (car_detected 60 0) AutoBrake_new) as [Hstored _].
    apply Hstored. reflexivity.
  - destruct (car_detected_uses_stored_speed (speed_update 100)
                (car_detected 60 0) AutoBrake_new) as [_ Hignored].
    apply Hignored. reflexivity.
Defined.

(** ** Repeated calls *)

(** X15: no call is latched.  Delivering the same event, or making the same
    call of the mutator, twice in succession leaves the controller in the
    state the first delivery left it in, and the second delivery publishes
    exactly what the first one published. *)
Theorem repeated_call :
  forall (B : Type) (HB : IServiceBus B)
         (c : call) (this : AutoBrake) (bus : B),
    fst (run [c; c] (this, bus)) = fst (run [c] (this, bus))
    /\ published c (fst (run [c] (this, bus))) = published c this
    /\ snd (run [c; c] (this, bus))
       = replay (published c this ++ published c this) bus.
Proof.
  intros B HB c this bus.
  assert (Hstate : fst (step (fst (step (this, [] : LogBus) c), [] : LogBus) c)
                   = fst (step (this, [] : LogBus) c)
                   /\ published c (fst (step (this, [] : LogBus) c))
                      = published c this).
  { unfold published.
    destruct c as [x|update|cd|limit]; cbn [step fst snd].
    - unfold set_collision_threshold_s.
      destruct (Double.ltb x (Double.of_Z 1)) eqn:Hx; cbn [fst];
        rewrite ?Hx; split; reflexivity.
    - unfold speed_update_callback.
      destruct (Double.gtb (su_velocity_mps update)
                  (Double.of_Z (last_known_speed_limit this))) eqn:Hover;
        cbn [fst last_known_speed_limit]; rewrite Hover; split; reflexivity.
    - unfold car_detected_callback.
      destruct (Double.gtb
                  (Double.div (cd_distance_m cd) (speed_mps this))
                  (Double.of_Z 0)
                && Double.leb
                     (Double.div (cd_distance_m cd) (speed_mps this))
                     (collision_threshold_s this)) eqn:Hguard;
        cbn [fst]; rewrite Hguard; split; reflexivity.
    - unfold speed_limit_callback.
      cbn [speed_mps last_known_speed_limit].
      destruct (Double.gtb (speed_mps this)
                  (Double.of_Z (sl_speed_mps limit))) eqn:Hover;
        cbn [fst speed_mps last_known_speed_limit collision_threshold_s];
        rewrite Hover; split; reflexivity. }
  destruct Hstate as [Hstate Hpub].
  rewrite !run_cons. cbn [run fold_left].
  rewrite (step_published c this bus). cbn [fst].
  rewrite (step_published c (fst (step (this, [] : LogBus) c))
             (replay (published c this) bus)).
  cbn [fst snd]. rewrite Hstate, Hpub, replay_app.
  repeat split; reflexivity.
Qed.
